(** * WordPress -> BMLT importer: a model of [importer/sync_wp_to_bmlt_v4.py]

    The model follows the source file top to bottom: the text utilities,
    the record classifier, the contact extractors, the geocode query
    cleaner, the fingerprint, the format resolver and finally the body of
    the [for obj in wp_items] loop of [main], written as a state-passing
    function over the run state with a log of the calls made to the
    outside world.  The predicates of the specification and the sample data
    come next, and the properties last.

    Modelling conventions.
    - A Python [str] is a list of Unicode code points ([str := list N]), so
      that [len] counts characters.  ASCII literals are written [lit "..."].
    - Whitespace ([str.strip], the regex classes [\s] and [\S]) is the exact
      set CPython uses.  Decimal digits ([\d], [str.isdigit], [int]), word
      characters ([\b]) and [str.lower] are modelled on the ASCII range:
      a code point above 127 is no digit, no word character and has no case.
    - A Python [float] is a primitive binary64 float; coordinates are only
      stored and copied.
    - A [dict] is a [gmap]; the payload is the dictionary the source builds.
    - [obj.get(k) or ""] reads a field of the source record; the record type
      stores that value, so an absent, [None] or empty field is [[]]. *)

From Stdlib Require Import ZArith NArith Ascii String Floats.
From stdpp Require Import base option list strings gmap pretty.

Local Open Scope Z_scope.

(** ** Python strings *)

Definition char := N.
Definition str := list char.

(** An ASCII literal as a Python string. *)
Definition lit (s : string) : str :=
  (λ a, N_of_ascii a) <$> String.list_ascii_of_string s.

Definition is_empty (s : str) : bool :=
  match s with [] => true | _ => false end.

(** CPython's [_PyUnicode_IsWhitespace]: what [str.strip()] removes and what
    [\s] matches in a [str] pattern. *)
Definition is_space (c : char) : bool :=
  ((9 <=? c) && (c <=? 13) || (28 <=? c) && (c <=? 32)
   || (c =? 133) || (c =? 160) || (c =? 5760)
   || (8192 <=? c) && (c <=? 8202)
   || (c =? 8232) || (c =? 8233) || (c =? 8239) || (c =? 8287)
   || (c =? 12288))%N.

Definition is_digit (c : char) : bool := ((48 <=? c) && (c <=? 57))%N.

(** [\w] on the ASCII range: letters, digits and the underscore. *)
Definition is_word (c : char) : bool :=
  (is_digit c || (65 <=? c) && (c <=? 90) || (97 <=? c) && (c <=? 122)
   || (c =? 95))%N.

Definition lower_char (c : char) : char :=
  if ((65 <=? c) && (c <=? 90))%N then (c + 32)%N else c.

(** [s.lower()] *)
Definition lower (s : str) : str := lower_char <$> s.

Fixpoint lstrip (s : str) : str :=
  match s with
  | c :: s' => if is_space c then lstrip s' else s
  | [] => []
  end.

Definition rstrip (s : str) : str := reverse (lstrip (reverse s)).

(** [s.strip()] *)
Definition strip (s : str) : str := rstrip (lstrip s).

(** [s.rstrip(chars)] *)
Fixpoint lstrip_chars (chars : list char) (s : str) : str :=
  match s with
  | c :: s' => if bool_decide (c ∈ chars) then lstrip_chars chars s' else s
  | [] => []
  end.

Definition rstrip_chars (chars : list char) (s : str) : str :=
  reverse (lstrip_chars chars (reverse s)).

(** [s.startswith(p)] *)
Fixpoint startswith (p s : str) : bool :=
  match p, s with
  | [], _ => true
  | a :: p', b :: s' => (a =? b)%N && startswith p' s'
  | _ :: _, [] => false
  end.

(** [sub in s] *)
Fixpoint contains (sub s : str) : bool :=
  startswith sub s ||
  match s with
  | [] => false
  | _ :: s' => contains sub s'
  end.

(** [s.replace(old, new)] for a non-empty [old]: occurrences are replaced
    left to right and do not overlap.  [skip] counts the characters of the
    occurrence just replaced that are still to be passed over. *)
Fixpoint replace_from (old new : str) (skip : nat) (s : str) : str :=
  match s with
  | [] => []
  | c :: s' =>
      match skip with
      | S k => replace_from old new k s'
      | O =>
          if startswith old s
          then new ++ replace_from old new (Nat.pred (length old)) s'
          else c :: replace_from old new O s'
      end
  end.

Definition replace (old new s : str) : str := replace_from old new O s.

(** [s.split(sep)] for a one-character separator: never the empty list. *)
Fixpoint split (sep : char) (s : str) : list str :=
  match s with
  | [] => [[]]
  | c :: s' =>
      if (c =? sep)%N then [] :: split sep s'
      else match split sep s' with
           | p :: ps => (c :: p) :: ps
           | [] => [[c]]
           end
  end.

(** [sep.join(parts)] *)
Fixpoint join (sep : str) (parts : list str) : str :=
  match parts with
  | [] => []
  | [p] => p
  | p :: ps => p ++ sep ++ join sep ps
  end.

(** [s.isdigit()] *)
Definition isdigit (s : str) : bool :=
  negb (is_empty s) && forallb is_digit s.

(** ** Integers: [int(s)], [str(n)] and the format [{n:02d}] *)

Definition digit_val (c : char) : Z := Z.of_N c - 48.

(** The digits of an integer literal after the sign: groups of digits
    separated by single underscores.  [acc] is the value read so far and
    [prev] tells whether the previous character was a digit. *)
Fixpoint int_digits (acc : Z) (prev : bool) (s : str) : option Z :=
  match s with
  | [] => if prev then Some acc else None
  | c :: s' =>
      if is_digit c then int_digits (10 * acc + digit_val c) true s'
      else if (c =? 95)%N && prev then
             match s' with
             | d :: _ => if is_digit d then int_digits acc false s' else None
             | [] => None
             end
           else None
  end.

(** [int(s)]: [None] stands for [ValueError]. *)
Definition py_int (s : str) : option Z :=
  match strip s with
  | 43%N :: ds => int_digits 0 false ds
  | 45%N :: ds => Z.opp <$> int_digits 0 false ds
  | ds => int_digits 0 false ds
  end.

(** [str(n)] for an integer. *)
Definition str_of_Z (n : Z) : str := lit (pretty n).

(** [f"{n:02d}"]: zero padded to width two, the sign counting. *)
Definition fmt02d (n : Z) : str :=
  let s := str_of_Z n in
  if (length s <? 2)%nat then 48%N :: s else s.

(** ** Configuration (lines 48-100) *)

Record config := {
  BMLT_BASE_URL : str;
  SERVICE_BODY_ID : Z;
  DEFAULT_LAT : float;
  DEFAULT_LON : float;
  ALLOW_FALLBACK_COORDS : bool;
  DEFAULT_PROVINCE : str;
}.

Definition BMLT_API_PREFIX : str := lit "/api/v1".

Definition VENUE_IN_PERSON : Z := 1.
Definition VENUE_VIRTUAL : Z := 2.
Definition VENUE_HYBRID : Z := 3.

Definition WEEKDAY_MAP : gmap str Z :=
  list_to_map
    [ (lit "Sunnuntai", 0); (lit "Maanantai", 1); (lit "Tiistai", 2);
      (lit "Keskiviikko", 3); (lit "Torstai", 4); (lit "Perjantai", 5);
      (lit "Lauantai", 6) ].

(** Code points 228 and 246 are the letters a-umlaut and o-umlaut. *)
Definition FORMAT_KEY_MAP : gmap str str :=
  list_to_map
    [ (lit "suomi", lit "FIN");
      (lit "englanti", lit "ENG");
      (lit "ven" ++ [228%N] ++ lit "j" ++ [228%N], lit "L/R");
      (lit "Avoin", lit "O");
      (lit "Suljettu", lit "C");
      (lit "Meditaatio", lit "ME");
      (lit "Puhujakokous", lit "So");
      (lit "Askelty" ++ [246%N] ++ lit "kokous", lit "St");
      (lit "Hybridi", lit "HY") ].

Definition COMMENTS_MAX : nat := 512.

(** The character U+2026, HORIZONTAL ELLIPSIS. *)
Definition ellipsis : char := 8230%N.

(** ** Utilities (lines 175-245) *)

(** [normalize_time], lines 175-190.  [hm_of_parts] is the body of the
    [try]: [None] is a [ValueError] raised by [int], [Some None] is falling
    out of the [try] without returning, [Some (Some r)] is [return r]. *)
Definition hm_of_parts (parts : list str) : option (option str) :=
  if (length parts =? 1)%nat && isdigit (default [] (head parts)) then
    h ← py_int (default [] (head parts));
    Some (Some (fmt02d h ++ lit ":00"))
  else if (2 <=? length parts)%nat then
    h ← py_int (default [] (parts !! 0%nat));
    m ← py_int (default [] (parts !! 1%nat));
    Some (Some (fmt02d h ++ lit ":" ++ fmt02d m))
  else Some None.

Definition normalize_time (val : str) : str :=
  if is_empty val then []
  else
    let s := replace (lit ".") (lit ":") (strip val) in
    let parts := split 58%N s in
    match hm_of_parts parts with
    | Some (Some r) => r
    | Some None => s
    | None => s
    end.

(** [duration_hm], lines 193-203. *)
Definition duration_hm (minutes_val : str) : str :=
  let mins := default 90 (py_int (strip minutes_val)) in
  let mins := if mins <=? 0 then 90 else mins in
  fmt02d (mins `div` 60) ++ lit ":" ++ fmt02d (mins `mod` 60).

(** The character loop of [strip_html_like], lines 211-220. *)
Fixpoint drop_tags (in_tag : bool) (txt : str) : str :=
  match txt with
  | [] => []
  | ch :: txt' =>
      if (ch =? 60)%N then drop_tags true txt'
      else if (ch =? 62)%N then drop_tags false txt'
      else if in_tag then drop_tags in_tag txt'
      else ch :: drop_tags in_tag txt'
  end.

(** [strip_html_like], lines 206-224. *)
Definition strip_html_like (s : str) : str :=
  if is_empty s then []
  else
    let txt := replace (lit "<br>") [10%N]
                 (replace (lit "<br/>") [10%N]
                    (replace (lit "<br />") [10%N] s)) in
    let cleaned := drop_tags false txt in
    let cleaned := replace [13%N] [10%N] (replace [13%N; 10%N] [10%N] cleaned) in
    let lines := filter (λ l, is_empty l = false) (strip <$> split 10%N cleaned) in
    strip (join [10%N] lines).

(** [truncate_comments], lines 227-234. *)
Definition truncate_comments (s : str) : str :=
  if is_empty s then []
  else if (length s <=? COMMENTS_MAX)%nat then s
  else if (COMMENTS_MAX <=? 3)%nat then take COMMENTS_MAX s
  else take (COMMENTS_MAX - 1) s ++ [ellipsis].

(** ** Source records *)

(** The value of a token field ([rel_kokousmuodot], [rel_kokouskielet]):
    the content API gives a string or a list of strings. *)
Inductive tokens :=
  | TStr (s : str)
  | TList (l : list str).

(** One item of [wp_items]; each field holds [obj.get(key) or ""]. *)
Record wp_item := {
  wp_id : Z;
  title_rendered : str;
  slug : str;
  weekday : str;
  alkamisaika : str;
  kesto : str;
  katuosoite : str;
  postinumero : str;
  kaupunki : str;
  maa : str;
  karttalinkki : str;
  lisatiedot : str;
  rel_kokousmuodot : tokens;
  rel_kokouskielet : tokens;
}.

(** [split_tokens], lines 237-245. *)
Definition split_tokens (v : tokens) : list str :=
  match v with
  | TList l => strip <$> filter (λ x, is_empty x = false) l
  | TStr s =>
      if is_empty s then []
      else
        let s := foldl (λ s sep, replace sep (lit ",") s) s
                   [lit ","; lit " ja "; lit " & "; lit ";"] in
        filter (λ x, is_empty x = false) (strip <$> split 44%N s)
  end.

(** ** Record classifier *)

(** [is_virtual], lines 248-254. *)
Definition is_virtual (obj : wp_item) : bool :=
  let street := lower (katuosoite obj) in
  let city := lower (kaupunki obj) in
  let link := lower (karttalinkki obj) in
  if contains (lit "internet") city || contains (lit "zoom") street
     || contains (lit "zoom") link || contains (lit "teams") link
  then true else false.

(** The test of line 492,
    [obj.get("rel_kokousmuodot") and "Hybridi" in str(obj.get("rel_kokousmuodot"))].
    For a list, [str] is its [repr]: the elements quoted and escaped, joined
    by a comma and a space, in brackets.  The word has no character that
    [repr] adds or rewrites, and an escape never begins with [H], so the
    word is in the [repr] exactly when it is in one of the elements. *)
Definition has_hybrid_marker (v : tokens) : bool :=
  match v with
  | TStr s => negb (is_empty s) && contains (lit "Hybridi") s
  | TList l => negb (bool_decide (l = [])) && existsb (contains (lit "Hybridi")) l
  end.

(** ** Virtual contact extraction *)

(** The longest prefix whose characters satisfy [f]. *)
Fixpoint span (f : char → bool) (s : str) : str :=
  match s with
  | c :: s' => if f c then c :: span f s' else []
  | [] => []
  end.

(** [re.search]: the first position, left to right, at which the pattern
    matches.  A pattern is given by its match at the head of the rest of the
    text, knowing the character before it (for [\b]). *)
Fixpoint re_search (pat : option char → str → option str)
    (prev : option char) (s : str) : option str :=
  match pat prev s with
  | Some m => Some m
  | None =>
      match s with
      | [] => None
      | c :: s' => re_search pat (Some c) s'
      end
  end.

(** [(https?://\S+)] at the head of [s]: a scheme and at least one
    character that is no whitespace, as many as there are. *)
Definition url_at (_ : option char) (s : str) : option str :=
  let from scheme :=
    if startswith scheme s then
      let body := span (λ c, negb (is_space c)) (drop (length scheme) s) in
      if is_empty body then None else Some (scheme ++ body)
    else None in
  match from (lit "https://") with
  | Some m => Some m
  | None => from (lit "http://")
  end.

(** [extract_first_url], lines 257-263. *)
Definition extract_first_url (text : str) : str :=
  if is_empty text then []
  else
    match re_search url_at None text with
    | None => []
    | Some m => rstrip_chars (lit ").,]") m
    end.

(** [\b] before a word character: the text starts here or the character
    before is no word character. *)
Definition boundary_before (prev : option char) : bool :=
  match prev with
  | None => true
  | Some c => negb (is_word c)
  end.

(** [\b] after a word character. *)
Definition boundary_after (rest : str) : bool :=
  match rest with
  | [] => true
  | c :: _ => negb (is_word c)
  end.

(** [(\+\d{6,15}|\b0\d{6,15}\b)] at the head of [s].  After the plus sign
    the digits are taken greedily, at most 15.  After the zero the closing
    [\b] can only hold at the end of the whole run of digits, so the run
    must have between 6 and 15 digits and end at a word boundary. *)
Definition phone_compact_at (prev : option char) (s : str) : option str :=
  match s with
  | 43%N :: rest =>
      let ds := span is_digit rest in
      if (6 <=? length ds)%nat then Some (43%N :: take 15 ds) else None
  | 48%N :: rest =>
      let ds := span is_digit rest in
      if boundary_before prev && (6 <=? length ds)%nat && (length ds <=? 15)%nat
         && boundary_after (drop (length ds) rest)
      then Some (48%N :: ds) else None
  | _ => None
  end.

(** The class [[\d\s\-]]. *)
Definition is_phone_filler (c : char) : bool :=
  is_digit c || is_space c || (c =? 45)%N.

(** [(\+\d[\d\s\-]{6,20}|\b0\d[\d\s\-]{6,20})] at the head of [s]. *)
Definition phone_loose_at (prev : option char) (s : str) : option str :=
  match s with
  | c :: d :: rest =>
      if ((c =? 43)%N || (c =? 48)%N && boundary_before prev) && is_digit d then
        let body := span is_phone_filler rest in
        if (6 <=? length body)%nat then Some (c :: d :: take 20 body) else None
      else None
  | _ => None
  end.

(** [extract_phone_number], lines 266-277. *)
Definition extract_phone_number (text : str) : str :=
  if is_empty text then []
  else
    let t := strip_html_like text in
    let compact := replace (lit "-") [] (replace (lit " ") [] t) in
    match re_search phone_compact_at None compact with
    | Some m => m
    | None =>
        match re_search phone_loose_at None t with
        | Some m2 => filter (λ c, is_digit c || (c =? 43)%N = true) m2
        | None => []
        end
    end.

(** ** Geocode query (lines 280-295) *)

(** [re.sub(r"\([^)]*\)", "", s)]: an opening parenthesis is removed with
    everything up to the next closing one; with no closing parenthesis
    ahead it stays. *)
Fixpoint drop_parens (inside : bool) (s : str) : str :=
  match s with
  | [] => []
  | c :: s' =>
      if inside then drop_parens (negb (c =? 41)%N) s'
      else if (c =? 40)%N && bool_decide (41%N ∈ s') then drop_parens true s'
      else c :: drop_parens false s'
  end.

(** [re.sub(r"\s+", " ", s)] *)
Fixpoint collapse_spaces (in_run : bool) (s : str) : str :=
  match s with
  | [] => []
  | c :: s' =>
      if is_space c then
        if in_run then collapse_spaces true s' else 32%N :: collapse_spaces true s'
      else c :: collapse_spaces false s'
  end.

(** The inner function [_clean]. *)
Definition _clean (s : str) : str :=
  if is_empty s then []
  else
    let s := strip s in
    let s := strip (drop_parens false s) in
    let s := replace (lit "/") (lit " ") s in
    strip (collapse_spaces false s).

Definition clean_geocode_query (street postal city country : str) : str :=
  let street_c := _clean street in
  let postal_c := _clean postal in
  let city_c := _clean city in
  let country_c := _clean country in
  let parts := filter (λ p, is_empty p = false) [street_c; postal_c; city_c; country_c] in
  join (lit ", ") parts.

(** ** Payloads, the outside world and the run state *)

(** The values a payload holds. *)
Inductive pyval :=
  | VInt (n : Z)
  | VBool (b : bool)
  | VStr (s : str)
  | VFloat (f : float)
  | VList (l : list Z).

(** What [geocode_address] does for a query (lines 298-311): a pair of
    coordinates, [None] for an empty answer, or an exception of [urlopen]. *)
Inductive geo_result :=
  | GeoFound (lat lon : float)
  | GeoNone
  | GeoRaise.

(** What [http_json] does for a request: it returns (a 2xx answer), or
    [urlopen] raises [HTTPError] with a status code, or another exception. *)
Inductive http_result :=
  | HttpOk
  | HttpError (code : Z)
  | HttpRaise.

Inductive http_method := GET | POST | PUT | PATCH | DELETE.

(** The collaborators as they answer while one item is processed. *)
Record world := {
  geocode_address : str → geo_result;
  http_json : http_method → str → gmap str pyval → http_result;
}.

(** The calls made to the outside world, in the order they are made. *)
Inductive call :=
  | Geocode (q : str)
  | Sleep (milliseconds : Z)
  | Registry (m : http_method) (url : str) (body : gmap str pyval).

(** The variables of [main] that live across the iterations of its loop,
    and the log of calls. *)
Record run_state := {
  created : Z;
  skipped : Z;
  failed : Z;
  skipped_reasons : gmap str Z;
  failed_reasons : gmap str Z;
  fingerprints : gmap str str;
  geocode_cache : gmap str (float * float);
  calls : list call;
}.

(** [d[k] = d.get(k, 0) + 1] *)
Definition bump (k : str) (d : gmap str Z) : gmap str Z :=
  <[k := default 0 (d !! k) + 1]> d.

(** [skipped += 1; skipped_reasons[reason] = ...; continue] *)
Definition skip (reason : str) (st : run_state) : run_state :=
  {| created := created st;
     skipped := skipped st + 1;
     failed := failed st;
     skipped_reasons := bump reason (skipped_reasons st);
     failed_reasons := failed_reasons st;
     fingerprints := fingerprints st;
     geocode_cache := geocode_cache st;
     calls := calls st |}.

(** ** Format resolver *)

(** One entry of the registry's format list: [f.get("id")] and, for each
    translation, [(tr.get("key") or "")]. *)
Record format_entry := {
  format_id : option Z;
  translation_keys : list str;
}.

(** The loop of [bmlt_get_formats], lines 367-380. *)
Definition bmlt_get_formats (data : list format_entry) : gmap str Z * gset Z :=
  foldl (λ '(by_key, allowed_ids) f,
           match format_id f with
           | None => (by_key, allowed_ids)
           | Some fid_int =>
               (foldl (λ by_key tr,
                         let k := strip tr in
                         if is_empty k then by_key else <[k := fid_int]> by_key)
                      by_key (translation_keys f),
                allowed_ids ∪ {[fid_int]})
           end)
        (∅, ∅) data.

(** [build_format_ids], lines 383-410. *)
Definition build_format_ids (obj : wp_item) (format_key_to_id : gmap str Z)
    : list Z * list str :=
  let tokens := split_tokens (rel_kokousmuodot obj)
                  ++ split_tokens (rel_kokouskielet obj) in
  let start : list str * gset str :=
    if is_virtual obj then ([lit "VM"], {[lit "VM"]}) else ([], ∅) in
  let '(keys, _) :=
    foldl (λ '(keys, seen) t,
             match FORMAT_KEY_MAP !! t with
             | Some key =>
                 if negb (is_empty key) && bool_decide (key ∉ seen)
                 then (keys ++ [key], seen ∪ {[key]})
                 else (keys, seen)
             | None => (keys, seen)
             end)
          start tokens in
  foldl (λ '(ids, missing_keys) k,
           match format_key_to_id !! k with
           | Some fid =>
               if fid =? 0 then (ids, missing_keys ++ [k])
               else (ids ++ [fid], missing_keys)
           | None => (ids, missing_keys ++ [k])
           end)
        ([], []) keys.

(** ** The loop of [main] *)

(** What steps 1 to 8 of one iteration end in: a [continue] with a counted
    reason, or the payload of lines 542-571. *)
Inductive transformed :=
  | Skip (reason : str)
  | Assembled (payload : gmap str pyval).

(** The address fields as [main] reads them, lines 460-464. *)
Definition street_of (obj : wp_item) : str := strip (katuosoite obj).
Definition postal_of (obj : wp_item) : str := strip (postinumero obj).
Definition city_of (obj : wp_item) : str := strip (kaupunki obj).
Definition country_of (obj : wp_item) : str :=
  if is_empty (strip (maa obj)) then lit "Finland" else strip (maa obj).
Definition map_url_of (obj : wp_item) : str := strip (karttalinkki obj).

(** [virtual_link] after lines 470-476. *)
Definition virtual_link_of (obj : wp_item) : str :=
  if is_virtual obj then
    let map_url := map_url_of obj in
    let virtual_link :=
      if startswith (lit "http://") map_url || startswith (lit "https://") map_url
      then map_url else [] in
    if is_empty virtual_link
    then extract_first_url (strip_html_like (lisatiedot obj))
    else virtual_link
  else [].

(** [phone_number] after lines 471-477. *)
Definition phone_number_of (obj : wp_item) : str :=
  if is_virtual obj then extract_phone_number (lisatiedot obj) else [].

(** [venue_type] after lines 491-496. *)
Definition venue_type_of (obj : wp_item) : Z :=
  let venue_type := if is_virtual obj then VENUE_VIRTUAL else VENUE_IN_PERSON in
  if has_hybrid_marker (rel_kokousmuodot obj) then
    if negb (is_empty (street_of obj))
       && (negb (is_empty (city_of obj)) || negb (is_empty (postal_of obj)))
    then VENUE_HYBRID else VENUE_VIRTUAL
  else venue_type.

Section Importer.

Variable cfg : config.

(** [json.dumps(d, sort_keys=True, ensure_ascii=False)] and
    [hashlib.sha256(s.encode("utf-8")).hexdigest()], library functions. *)
Variable json_dumps : gmap str pyval → str.
Variable sha256_hexdigest : str → str.

(** [payload_fingerprint], lines 314-319. *)
Definition payload_fingerprint (payload : gmap str pyval) : str :=
  let relevant := payload in
  let relevant := delete (lit "latitude") relevant in
  let relevant := delete (lit "longitude") relevant in
  let blob := json_dumps relevant in
  sha256_hexdigest blob.

(** [bmlt_create_meeting], lines 413-416: the request it sends and what
    [http_json] does with it. *)
Definition bmlt_create_meeting (w : world) (payload : gmap str pyval)
    : call * http_result :=
  let url := BMLT_BASE_URL cfg ++ BMLT_API_PREFIX ++ lit "/meetings" in
  (Registry POST url payload, http_json w POST url payload).

(** Lines 514-540: the coordinates of the payload, or the reason of a
    [continue]; with them the geocode cache and the calls made. *)
Definition resolve_coordinates (w : world) (cache : gmap str (float * float))
    (venue_type : Z) (street postal city country : str)
    : (str + float * float) * gmap str (float * float) * list call :=
  let default_coords := (DEFAULT_LAT cfg, DEFAULT_LON cfg) in
  if (venue_type =? VENUE_IN_PERSON) || (venue_type =? VENUE_HYBRID) then
    let q := clean_geocode_query street postal city country in
    if negb (is_empty q) then
      match cache !! q with
      | Some latlon => (inr latlon, cache, [])
      | None =>
          match geocode_address w q with
          | GeoFound lat lon =>
              (inr (lat, lon), <[q := (lat, lon)]> cache, [Geocode q; Sleep 1100])
          | GeoNone =>
              if negb (ALLOW_FALLBACK_COORDS cfg)
              then (inl (lit "geocode_failed"), cache, [Geocode q; Sleep 1100])
              else (inr default_coords, cache, [Geocode q; Sleep 1100])
          | GeoRaise =>
              if negb (ALLOW_FALLBACK_COORDS cfg)
              then (inl (lit "geocode_error"), cache, [Geocode q])
              else (inr default_coords, cache, [Geocode q])
          end
      end
    else (inr default_coords, cache, [])
  else (inr default_coords, cache, []).

(** Lines 542-571. *)
Definition assemble (obj : wp_item) (day : Z) (start_time duration : str)
    (venue_type : Z) (lat lon : float) (format_ids : list Z)
    (street city postal country map_url virtual_link phone_number comments : str)
    : gmap str pyval :=
  let title :=
    if negb (is_empty (title_rendered obj)) then title_rendered obj
    else if negb (is_empty (slug obj)) then slug obj
    else lit "WP-" ++ str_of_Z (wp_id obj) in
  list_to_map
    [ (lit "serviceBodyId", VInt (SERVICE_BODY_ID cfg));
      (lit "name", VStr (strip_html_like title));
      (lit "day", VInt day);
      (lit "startTime", VStr start_time);
      (lit "duration", VStr duration);
      (lit "published", VBool true);
      (lit "venueType", VInt venue_type);
      (lit "latitude", VFloat lat);
      (lit "longitude", VFloat lon);
      (lit "formatIds", VList format_ids);
      (lit "locationStreet", VStr street);
      (lit "locationCity", VStr city);
      (lit "locationPostalCode", VStr postal);
      (lit "locationCountry", VStr country);
      (lit "locationUrl", VStr map_url);
      (lit "location_street", VStr street);
      (lit "location_municipality", VStr city);
      (lit "location_postal_code", VStr postal);
      (lit "location_country", VStr country);
      (lit "location_url", VStr map_url);
      (lit "locationProvince", VStr (DEFAULT_PROVINCE cfg));
      (lit "location_province", VStr (DEFAULT_PROVINCE cfg));
      (lit "virtualMeetingLink", VStr virtual_link);
      (lit "virtual_meeting_link", VStr virtual_link);
      (lit "phoneMeetingNumber", VStr phone_number);
      (lit "phone_meeting_number", VStr phone_number);
      (lit "comments", VStr comments);
      (lit "externalId", VStr (lit "wp:" ++ str_of_Z (wp_id obj))) ].

(** Lines 498-506: the ids of [build_format_ids] filtered against the
    valid ids, with the fallback to the key [FIN]. *)
Definition resolve_format_ids (obj : wp_item) (format_key_to_id : gmap str Z)
    (allowed_format_ids : gset Z) : list Z :=
  let '(format_ids, missing_format_keys) := build_format_ids obj format_key_to_id in
  let format_ids := filter (λ fid, fid ∈ allowed_format_ids) format_ids in
  match format_ids, format_key_to_id !! lit "FIN" with
  | [], Some fin_id =>
      if bool_decide (fin_id ∈ allowed_format_ids) then [fin_id] else format_ids
  | _, _ => format_ids
  end.

(** Lines 447-571 of one iteration: every [continue] before the
    fingerprint, or the payload. *)
Definition transform (format_key_to_id : gmap str Z) (allowed_format_ids : gset Z)
    (w : world) (cache : gmap str (float * float)) (obj : wp_item)
    : transformed * gmap str (float * float) * list call :=
  let weekday_fi := strip (weekday obj) in
  let day := WEEKDAY_MAP !! weekday_fi in
  let start_time := normalize_time (alkamisaika obj) in
  let duration := duration_hm (kesto obj) in
  match day with
  | None => (Skip (lit "missing_day_or_time"), cache, [])
  | Some day =>
  if is_empty start_time then (Skip (lit "missing_day_or_time"), cache, [])
  else
  let street := street_of obj in
  let postal := postal_of obj in
  let city := city_of obj in
  let country := country_of obj in
  let map_url := map_url_of obj in
  let comments_raw := strip_html_like (lisatiedot obj) in
  let comments := truncate_comments comments_raw in
  let virtual := is_virtual obj in
  let virtual_link := virtual_link_of obj in
  let phone_number := phone_number_of obj in
  if virtual && is_empty virtual_link && is_empty phone_number
  then (Skip (lit "virtual_missing_link_or_phone"), cache, [])
  else
  if negb virtual && (is_empty street || is_empty city && is_empty postal)
  then (Skip (lit "in_person_missing_address"), cache, [])
  else
  let venue_type := venue_type_of obj in
  let format_ids := resolve_format_ids obj format_key_to_id allowed_format_ids in
  if bool_decide (format_ids = []) then (Skip (lit "no_valid_formats"), cache, [])
  else
  match resolve_coordinates w cache venue_type street postal city country with
  | (inl reason, cache, cs) => (Skip reason, cache, cs)
  | (inr (lat, lon), cache, cs) =>
      (Assembled (assemble obj day start_time duration venue_type lat lon
                    format_ids street city postal country map_url
                    virtual_link phone_number comments),
       cache, cs)
  end
  end.

(** One iteration of the loop of [main], lines 446-600. *)
Definition loop_body (format_key_to_id : gmap str Z) (allowed_format_ids : gset Z)
    (st : run_state) (it : wp_item * world) : run_state :=
  let '(obj, w) := it in
  let '(r, cache, cs) :=
    transform format_key_to_id allowed_format_ids w (geocode_cache st) obj in
  let st :=
    {| created := created st;
       skipped := skipped st;
       failed := failed st;
       skipped_reasons := skipped_reasons st;
       failed_reasons := failed_reasons st;
       fingerprints := fingerprints st;
       geocode_cache := cache;
       calls := calls st ++ cs |} in
  match r with
  | Skip reason => skip reason st
  | Assembled payload =>
      let fp := payload_fingerprint payload in
      if bool_decide (fingerprints st !! str_of_Z (wp_id obj) = Some fp)
      then skip (lit "unchanged") st
      else
        let '(c, res) := bmlt_create_meeting w payload in
        match res with
        | HttpOk =>
            {| created := created st + 1;
               skipped := skipped st;
               failed := failed st;
               skipped_reasons := skipped_reasons st;
               failed_reasons := failed_reasons st;
               fingerprints := <[str_of_Z (wp_id obj) := fp]> (fingerprints st);
               geocode_cache := geocode_cache st;
               calls := calls st ++ [c] |}
        | HttpError code =>
            {| created := created st;
               skipped := skipped st;
               failed := failed st + 1;
               skipped_reasons := skipped_reasons st;
               failed_reasons := bump (str_of_Z code) (failed_reasons st);
               fingerprints := fingerprints st;
               geocode_cache := geocode_cache st;
               calls := calls st ++ [c] |}
        | HttpRaise =>
            {| created := created st;
               skipped := skipped st;
               failed := failed st + 1;
               skipped_reasons := skipped_reasons st;
               failed_reasons := bump (lit "exception") (failed_reasons st);
               fingerprints := fingerprints st;
               geocode_cache := geocode_cache st;
               calls := calls st ++ [c] |}
        end
  end.

(** The state of line 436-444 before the first iteration. *)
Definition initial_state (geocode_cache : gmap str (float * float))
    (fingerprints : gmap str str) : run_state :=
  {| created := 0; skipped := 0; failed := 0;
     skipped_reasons := ∅; failed_reasons := ∅;
     fingerprints := fingerprints;
     geocode_cache := geocode_cache;
     calls := [] |}.

(** [for obj in wp_items: ...], lines 446-600. *)
Definition run_loop (format_key_to_id : gmap str Z) (allowed_format_ids : gset Z)
    (st : run_state) (wp_items : list (wp_item * world)) : run_state :=
  foldl (loop_body format_key_to_id allowed_format_ids) st wp_items.

End Importer.

(** ** Specification predicates *)

(** [word] occurs in [s] when case is ignored: some stretch of [s]
    lowers to [word]. *)
Definition occurs_ignoring_case (word s : str) : Prop :=
  ∃ pre w post, s = pre ++ w ++ post ∧ lower w = word.

(** What the payload says on venue, contact and address. *)
Definition payload_fields (p : gmap str pyval) (venue : Z)
    (link phone street city postal : str) : Prop :=
  p !! lit "venueType" = Some (VInt venue)
  ∧ p !! lit "virtualMeetingLink" = Some (VStr link)
  ∧ p !! lit "phoneMeetingNumber" = Some (VStr phone)
  ∧ p !! lit "locationStreet" = Some (VStr street)
  ∧ p !! lit "locationCity" = Some (VStr city)
  ∧ p !! lit "locationPostalCode" = Some (VStr postal).

(** The contact invariant as the data model words it: exactly one of the
    link and the telephone number is there, or the venue is not virtual. *)
Definition exactly_one_contact (venue : Z) (link phone : str) : Prop :=
  (link ≠ [] ∧ phone = []) ∨ (link = [] ∧ phone ≠ []) ∨ venue ≠ VENUE_VIRTUAL.

(** The contact invariant the code keeps: at least one of them. *)
Definition some_contact (venue : Z) (link phone : str) : Prop :=
  link ≠ [] ∨ phone ≠ [] ∨ venue ≠ VENUE_VIRTUAL.

Definition has_address (venue : Z) (street city postal : str) : Prop :=
  venue = VENUE_IN_PERSON ∨ venue = VENUE_HYBRID →
  street ≠ [] ∧ (city ≠ [] ∨ postal ≠ []).

(** The conditions of lines 455, 478 and 485 are all false: the iteration
    gets as far as the format resolution of line 498. *)
Definition reaches_format_resolution (obj : wp_item) : Prop :=
  is_Some (WEEKDAY_MAP !! strip (weekday obj))
  ∧ normalize_time (alkamisaika obj) ≠ []
  ∧ (is_virtual obj = true → virtual_link_of obj ≠ [] ∨ phone_number_of obj ≠ [])
  ∧ (is_virtual obj = false →
     street_of obj ≠ [] ∧ (city_of obj ≠ [] ∨ postal_of obj ≠ [])).

(** The URL of line 414. *)
Definition meetings_url (cfg : config) : str :=
  BMLT_BASE_URL cfg ++ lit "/api/v1/meetings".

(** A call is no request to the registry, or it creates a meeting. *)
Definition is_create (cfg : config) (c : call) : Prop :=
  match c with
  | Registry m url _ => m = POST ∧ url = meetings_url cfg
  | _ => True
  end.





(** ** Sample data *)

(** The defaults of the configuration block; the coordinates are the
    binary64 values of [float("60.1699")] and [float("24.9384")]. *)
Definition default_config : config :=
  {| BMLT_BASE_URL := lit "http://127.0.0.1";
     SERVICE_BODY_ID := 1;
     DEFAULT_LAT := 0x1.e15bf487fcb92p+5%float;
     DEFAULT_LON := 0x1.8f03afb7e90ffp+4%float;
     ALLOW_FALLBACK_COORDS := false;
     DEFAULT_PROVINCE := lit "Uusimaa" |}.

(** Stand-ins for the two library functions, to run the model on concrete
    inputs: the entries of the dictionary in the canonical order of the
    map, and the identity for the digest. *)
Definition sample_render (v : pyval) : str :=
  match v with
  | VInt n => str_of_Z n
  | VBool b => if b then lit "true" else lit "false"
  | VStr s => s
  | VFloat _ => lit "float"
  | VList l => join (lit ",") (str_of_Z <$> l)
  end.

Definition sample_json_dumps (d : gmap str pyval) : str :=
  join (lit ";") ((λ '(k, v), k ++ lit "=" ++ sample_render v) <$> map_to_list d).

Definition sample_digest (blob : str) : str := blob.

(** A registry that knows the key [FIN] under the id 4, and one whose
    format list is empty. *)
Definition sample_formats : gmap str Z * gset Z :=
  bmlt_get_formats
    [ {| format_id := Some 4; translation_keys := [lit "FIN"; lit "FI"] |} ].

Definition no_formats : gmap str Z * gset Z := bmlt_get_formats [].

(** A meeting in person at a street address, in Finnish. *)
Definition street_item : wp_item :=
  {| wp_id := 7; title_rendered := lit "Ryhma"; slug := [];
     weekday := lit "Maanantai"; alkamisaika := lit "19"; kesto := lit "90";
     katuosoite := lit "Mannerheimintie 1"; postinumero := [];
     kaupunki := lit "Helsinki"; maa := []; karttalinkki := []; lisatiedot := [];
     rel_kokousmuodot := TStr []; rel_kokouskielet := TStr (lit "suomi") |}.

Definition street_item_query : str := lit "Mannerheimintie 1, Helsinki, Finland".

Definition street_item_payload : gmap str pyval :=
  assemble default_config street_item 1 (lit "19:00") (lit "01:30") VENUE_IN_PERSON
    60.5%float 24.5%float [4] (lit "Mannerheimintie 1") (lit "Helsinki") []
    (lit "Finland") [] [] [] [].

(** The same payload with other coordinates. *)
Definition street_item_payload_moved : gmap str pyval :=
  assemble default_config street_item 1 (lit "19:00") (lit "01:30") VENUE_IN_PERSON
    60.25%float 24.75%float [4] (lit "Mannerheimintie 1") (lit "Helsinki") []
    (lit "Finland") [] [] [] [].

(** The same meeting held in English, a language the registry of
    [sample_formats] has no key for. *)
Definition english_item : wp_item :=
  {| wp_id := 10; title_rendered := lit "Group"; slug := [];
     weekday := lit "Maanantai"; alkamisaika := lit "19"; kesto := lit "90";
     katuosoite := lit "Mannerheimintie 1"; postinumero := [];
     kaupunki := lit "Helsinki"; maa := []; karttalinkki := []; lisatiedot := [];
     rel_kokousmuodot := TStr []; rel_kokouskielet := TStr (lit "englanti") |}.

Definition english_item_payload : gmap str pyval :=
  assemble default_config english_item 1 (lit "19:00") (lit "01:30") VENUE_IN_PERSON
    60.5%float 24.5%float [4] (lit "Mannerheimintie 1") (lit "Helsinki") []
    (lit "Finland") [] [] [] [].




(** An item whose street is the word "Teams" and nothing else. *)
Definition teams_street_item : wp_item :=
  {| wp_id := 1; title_rendered := []; slug := []; weekday := [];
     alkamisaika := []; kesto := []; katuosoite := lit "Teams"; postinumero := [];
     kaupunki := []; maa := []; karttalinkki := []; lisatiedot := [];
     rel_kokousmuodot := TStr []; rel_kokouskielet := TStr [] |}.

(** A meeting held on Zoom: the map link is the meeting link and the
    notes give a telephone number. *)
Definition zoom_item : wp_item :=
  {| wp_id := 2; title_rendered := lit "Online"; slug := [];
     weekday := lit "Maanantai"; alkamisaika := lit "19"; kesto := lit "60";
     katuosoite := []; postinumero := []; kaupunki := []; maa := [];
     karttalinkki := lit "https://zoom.us/j/1";
     lisatiedot := lit "+358401234567";
     rel_kokousmuodot := TStr []; rel_kokouskielet := TStr (lit "suomi") |}.

Definition zoom_item_payload : gmap str pyval :=
  assemble default_config zoom_item 1 (lit "19:00") (lit "01:00") VENUE_VIRTUAL
    (DEFAULT_LAT default_config) (DEFAULT_LON default_config) [4] [] [] []
    (lit "Finland") (lit "https://zoom.us/j/1") (lit "https://zoom.us/j/1")
    (lit "+358401234567") (lit "+358401234567").



(** Worlds: the geocoder finds nothing; the geocoder raises; the geocoder
    finds the address and the registry answers 422, or accepts. *)
Definition quiet_world : world :=
  {| geocode_address := λ _, GeoNone; http_json := λ _ _ _, HttpOk |}.

Definition geocoder_down : world :=
  {| geocode_address := λ _, GeoRaise; http_json := λ _ _ _, HttpOk |}.


Definition registry_accepts : world :=
  {| geocode_address := λ _, GeoFound 60.5%float 24.5%float;
     http_json := λ _ _ _, HttpOk |}.

(** The state before the first iteration of a first run, and of a later
    run that remembers a fingerprint for the item 7. *)
Definition first_run : run_state := initial_state ∅ ∅.

Definition later_run : run_state :=
  initial_state ∅ {[ str_of_Z 7 := lit "an older fingerprint" ]}.

(** * Properties *)

(** Evaluates both sides of a closed equation. *)
Ltac vm_refl :=
  lazymatch goal with |- _ = ?r => vm_cast_no_check (eq_refl r) end.

(** Reads a key of the dictionary of [assemble]; the values stay opaque. *)
Ltac assemble_lookup :=
  unfold assemble; cbv zeta;
  repeat match goal with
    | |- context [strip_html_like ?t] => generalize (strip_html_like t); intro
    | |- context [str_of_Z ?n] => generalize (str_of_Z n); intro
    end;
  vm_compute; reflexivity.

(** ** Worked examples *)

Example normalize_time_examples :
  normalize_time (lit "9") = lit "09:00"
  ∧ normalize_time (lit "9.30") = lit "09:30"
  ∧ normalize_time (lit "19:5") = lit "19:05"
  ∧ normalize_time [] = []
  ∧ normalize_time (lit "7pm") = lit "7pm".
Proof. split_and!; vm_refl. Qed.

Example duration_hm_examples :
  duration_hm (lit "90") = lit "01:30"
  ∧ duration_hm (lit "0") = lit "01:30"
  ∧ duration_hm (lit "bad") = lit "01:30"
  ∧ duration_hm (lit "125") = lit "02:05".
Proof. split_and!; vm_refl. Qed.

Example strip_html_like_example :
  strip_html_like (lit "<p>Hello<br />world </p>  x")
  = lit "Hello" ++ [10%N] ++ lit "world   x".
Proof. vm_refl. Qed.

Example split_tokens_examples :
  split_tokens (TStr (lit "Avoin, Hybridi ja suomi & englanti;x,, "))
  = [lit "Avoin"; lit "Hybridi"; lit "suomi"; lit "englanti"; lit "x"]
  ∧ split_tokens (TList [lit " a "; []; lit "b"]) = [lit "a"; lit "b"].
Proof. split; vm_refl. Qed.

Example extract_first_url_examples :
  extract_first_url (lit "join at https://zoom.us/j/123). ok") = lit "https://zoom.us/j/123"
  ∧ extract_first_url (lit "see http:// x https://a") = lit "https://a"
  ∧ extract_first_url (lit "no link here") = [].
Proof. split_and!; vm_refl. Qed.

Example extract_phone_number_examples :
  extract_phone_number (lit "Call +358 40 123-4567 now") = lit "+358401234567"
  ∧ extract_phone_number (lit "tel 0401234567.") = lit "0401234567"
  ∧ extract_phone_number (lit "x 09 123 456 78 abc") = lit "0912345678"
  ∧ extract_phone_number (lit "a0401234567") = []
  ∧ extract_phone_number (lit "id 12345") = [].
Proof. split_and!; vm_refl. Qed.

Example clean_geocode_query_examples :
  clean_geocode_query (lit " Mannerheimintie 1 (takaovi) ") [] (lit "Helsinki/Vantaa")
    (lit "Finland")
  = lit "Mannerheimintie 1, Helsinki Vantaa, Finland"
  ∧ _clean (lit "a (b (c) d) e ( f") = lit "a d) e ( f".
Proof. split; vm_refl. Qed.

(** A meeting in the city "Internet Group" with a telephone number in its
    notes and no link: virtual, published with the number. *)
Example internet_group_example :
  let obj :=
    {| wp_id := 5; title_rendered := lit "Netti"; slug := [];
       weekday := lit "Perjantai"; alkamisaika := lit "20"; kesto := [];
       katuosoite := []; postinumero := []; kaupunki := lit "Internet Group";
       maa := []; karttalinkki := [];
       lisatiedot := lit "Soita 040 1234567";
       rel_kokousmuodot := TStr []; rel_kokouskielet := TStr (lit "suomi") |} in
  is_virtual obj = true
  ∧ virtual_link_of obj = []
  ∧ phone_number_of obj = lit "0401234567"
  ∧ venue_type_of obj = VENUE_VIRTUAL
  ∧ (transform default_config sample_formats.1 sample_formats.2 quiet_world ∅ obj).1.2 = ∅
  ∧ calls (loop_body default_config sample_json_dumps sample_digest
             sample_formats.1 sample_formats.2 first_run (obj, registry_accepts))
    = [Registry POST (lit "http://127.0.0.1/api/v1/meetings")
         (assemble default_config obj 5 (lit "20:00") (lit "01:30") VENUE_VIRTUAL
            (DEFAULT_LAT default_config) (DEFAULT_LON default_config) [4]
            [] (lit "Internet Group") [] (lit "Finland") [] [] (lit "0401234567")
            (lit "Soita 040 1234567"))].
Proof. cbv zeta. split_and!; vm_refl. Qed.

(** A second run over the same items, from the cache and the fingerprints
    the first run left, publishes nothing and calls nobody. *)
Example second_run_publishes_nothing :
  let items := [(street_item, registry_accepts); (zoom_item, registry_accepts)] in
  let run := run_loop default_config sample_json_dumps sample_digest
               sample_formats.1 sample_formats.2 in
  let st1 := run first_run items in
  let st2 := run (initial_state (geocode_cache st1) (fingerprints st1)) items in
  created st1 = 2
  ∧ created st2 = 0
  ∧ skipped st2 = 2
  ∧ skipped_reasons st2 = {[ lit "unchanged" := 2 ]}
  ∧ calls st2 = [].
Proof. cbv zeta. split_and!; vm_refl. Qed.

(** ** Strings *)

Lemma startswith_spec (p s : str) :
  startswith p s = true ↔ ∃ post, s = p ++ post.
Proof.
  revert s; induction p as [|a p IH]; intros s; simpl.
  - split; [intros _; by exists s | done].
  - destruct s as [|b s].
    + split; [done | intros [post H]; discriminate H].
    + rewrite andb_true_iff, N.eqb_eq, IH. split.
      * intros [-> [post ->]]. by exists post.
      * intros [post H]. injection H as -> ->. eauto.
Qed.

Lemma contains_spec (sub s : str) :
  contains sub s = true ↔ ∃ pre post, s = pre ++ sub ++ post.
Proof.
  induction s as [|c s IH]; simpl.
  - rewrite orb_false_r, startswith_spec. split.
    + intros [post H]. exists [], post. done.
    + intros (pre & post & H). symmetry in H.
      apply app_eq_nil in H as [-> H]. eauto.
  - rewrite orb_true_iff, startswith_spec, IH. split.
    + intros [[post H] | (pre & post & H)].
      * exists [], post. done.
      * exists (c :: pre), post. by rewrite H.
    + intros (pre & post & H). destruct pre as [|c' pre].
      * left. by exists post.
      * right. injection H as -> ->. eauto.
Qed.

Lemma contains_lower (word s : str) :
  contains word (lower s) = true ↔ occurs_ignoring_case word s.
Proof.
  rewrite contains_spec. unfold occurs_ignoring_case, lower. split.
  - intros (pre & post & H).
    apply fmap_app_inv in H as (pre' & rest & -> & H & ->).
    symmetry in H. apply fmap_app_inv in H as (w & post' & -> & -> & ->).
    by exists pre', w, post'.
  - intros (pre & w & post & -> & <-).
    exists (lower_char <$> pre), (lower_char <$> post).
    by rewrite !fmap_app.
Qed.

(** ** Text normalizer *)

Lemma truncate_comments_unfold (s : str) :
  truncate_comments s =
    if (length s <=? 512)%nat then s else take 511 s ++ [ellipsis].
Proof.
  unfold truncate_comments, COMMENTS_MAX.
  destruct s as [|c s]; [done |].
  change (is_empty (c :: s)) with false. cbv iota.
  destruct (length (c :: s) <=? 512)%nat; [done |].
  change (512 <=? 3)%nat with false. cbv iota.
  change (512 - 1)%nat with 511%nat. done.
Qed.

(** C8: [truncate_comments] is idempotent, its result never has more than
    512 characters, and it is the input when that has at most 512
    characters and otherwise the first 511 characters of the input followed
    by one ellipsis character. *)
Theorem truncate_comments_idempotent_bounded (s : str) :
  truncate_comments (truncate_comments s) = truncate_comments s
  ∧ (length (truncate_comments s) ≤ 512)%nat
  ∧ truncate_comments s =
      if (length s <=? 512)%nat then s else take 511 s ++ [ellipsis].
Proof.
  assert (Hlen : (length (truncate_comments s) ≤ 512)%nat).
  { rewrite truncate_comments_unfold.
    destruct (Nat.leb_spec (length s) 512) as [H|H]; [done |].
    rewrite length_app, length_take. cbn [length]. lia. }
  split_and!; [| done | apply truncate_comments_unfold].
  rewrite (truncate_comments_unfold (truncate_comments s)).
  by apply Nat.leb_le in Hlen as ->.
Qed.

(** ** Record classifier *)

(** C4, as the code has it: [is_virtual] answers true exactly when, case
    ignored, the city contains "internet", or the street contains "zoom",
    or the map link contains "zoom" or "teams".  The word "teams" in the
    street does not count. *)
Theorem is_virtual_rule (obj : wp_item) :
  is_virtual obj = true ↔
    occurs_ignoring_case (lit "internet") (kaupunki obj)
    ∨ occurs_ignoring_case (lit "zoom") (katuosoite obj)
    ∨ occurs_ignoring_case (lit "zoom") (karttalinkki obj)
    ∨ occurs_ignoring_case (lit "teams") (karttalinkki obj).
Proof.
  rewrite <- !contains_lower. unfold is_virtual.
  destruct (contains (lit "internet") _), (contains (lit "zoom") (lower (katuosoite obj))),
    (contains (lit "zoom") (lower (karttalinkki obj))), (contains (lit "teams") _);
    simpl; intuition congruence.
Qed.

(** C4 as stated fails: the street contains "teams", case ignored, and the
    classifier answers false. *)
Lemma is_virtual_teams_in_street :
  occurs_ignoring_case (lit "teams") (katuosoite teams_street_item)
  ∧ is_virtual teams_street_item = false.
Proof.
  split; [| reflexivity].
  exists [], (lit "Teams"), []. split; reflexivity.
Qed.

(** ** Fingerprint *)

(** Two payloads assembled from the same values but for the coordinates
    agree on every other key. *)
Lemma assemble_coordinates_only cfg obj day start_time duration venue_type
    lat lon lat' lon' format_ids street city postal country map_url
    virtual_link phone_number comments (k : str) :
  k ≠ lit "latitude" → k ≠ lit "longitude" →
  assemble cfg obj day start_time duration venue_type lat lon format_ids
    street city postal country map_url virtual_link phone_number comments !! k
  = assemble cfg obj day start_time duration venue_type lat' lon' format_ids
      street city postal country map_url virtual_link phone_number comments !! k.
Proof.
  intros Hlat Hlon. unfold assemble. cbv zeta.
  unfold list_to_map. cbn [foldr fst snd].
  rewrite !(lookup_insert _ _ k).
  repeat (case_decide; [first [reflexivity | congruence] |]).
  reflexivity.
Qed.

(** C2: two payloads that agree on every key other than [latitude] and
    [longitude] have the same fingerprint. *)
Theorem payload_fingerprint_ignores_coordinates
    (json_dumps : gmap str pyval → str) (sha256_hexdigest : str → str)
    (p1 p2 : gmap str pyval) :
  (∀ k, k ≠ lit "latitude" → k ≠ lit "longitude" → p1 !! k = p2 !! k) →
  payload_fingerprint json_dumps sha256_hexdigest p1
  = payload_fingerprint json_dumps sha256_hexdigest p2.
Proof.
  intros H. unfold payload_fingerprint. do 2 f_equal.
  apply map_eq. intros k.
  destruct (decide (k = lit "longitude")) as [-> | Hlon].
  { by rewrite !lookup_delete_eq. }
  rewrite !(lookup_delete_ne _ (lit "longitude")) by done.
  destruct (decide (k = lit "latitude")) as [-> | Hlat].
  { by rewrite !lookup_delete_eq. }
  rewrite !(lookup_delete_ne _ (lit "latitude")) by done.
  by apply H.
Qed.

(** The payload of the street meeting and the same payload moved to other
    coordinates differ in their coordinates and have one fingerprint. *)
Lemma payload_fingerprint_ignores_coordinates_witness :
  street_item_payload !! lit "latitude" = Some (VFloat 60.5%float)
  ∧ street_item_payload_moved !! lit "latitude" = Some (VFloat 60.25%float)
  ∧ payload_fingerprint sample_json_dumps sample_digest street_item_payload
    = payload_fingerprint sample_json_dumps sample_digest street_item_payload_moved.
Proof.
  split; [vm_refl |]. split; [vm_refl |].
  apply (payload_fingerprint_ignores_coordinates sample_json_dumps sample_digest
           street_item_payload street_item_payload_moved).
  intros k Hlat Hlon. by apply assemble_coordinates_only.
Defined.

(** ** The transformation pipeline *)

Lemma is_empty_false (s : str) : is_empty s = false ↔ s ≠ [].
Proof. by destruct s. Qed.

Lemma venue_type_of_cases obj :
  (venue_type_of obj = VENUE_VIRTUAL
   ∧ (is_virtual obj = true
      ∨ ¬ (street_of obj ≠ [] ∧ (city_of obj ≠ [] ∨ postal_of obj ≠ []))))
  ∨ (venue_type_of obj = VENUE_IN_PERSON ∧ is_virtual obj = false)
  ∨ (venue_type_of obj = VENUE_HYBRID
     ∧ street_of obj ≠ [] ∧ (city_of obj ≠ [] ∨ postal_of obj ≠ [])).
Proof.
  unfold venue_type_of.
  destruct (has_hybrid_marker _).
  - destruct (street_of obj) as [|a s], (city_of obj) as [|b c], (postal_of obj) as [|d e];
      simpl; intuition congruence.
  - destruct (is_virtual obj); auto.
Qed.


Section Pipeline.

Variable cfg : config.
Variable json_dumps : gmap str pyval → str.
Variable sha256_hexdigest : str → str.

Lemma assemble_fields obj day start_time duration venue_type lat lon format_ids
    street city postal country map_url virtual_link phone_number comments :
  payload_fields
    (assemble cfg obj day start_time duration venue_type lat lon format_ids
       street city postal country map_url virtual_link phone_number comments)
    venue_type virtual_link phone_number street city postal.
Proof. unfold payload_fields. split_and!; assemble_lookup. Qed.

(** What [transform] has checked when it assembles a payload. *)
Lemma transform_assembled fmt allowed w cache obj p cache' cs :
  transform cfg fmt allowed w cache obj = (Assembled p, cache', cs) →
  ∃ day lat lon,
    WEEKDAY_MAP !! strip (weekday obj) = Some day
    ∧ normalize_time (alkamisaika obj) ≠ []
    ∧ (is_virtual obj = true → virtual_link_of obj ≠ [] ∨ phone_number_of obj ≠ [])
    ∧ (is_virtual obj = false →
       street_of obj ≠ [] ∧ (city_of obj ≠ [] ∨ postal_of obj ≠ []))
    ∧ resolve_format_ids obj fmt allowed ≠ []
    ∧ resolve_coordinates cfg w cache (venue_type_of obj) (street_of obj)
        (postal_of obj) (city_of obj) (country_of obj) = (inr (lat, lon), cache', cs)
    ∧ p = assemble cfg obj day (normalize_time (alkamisaika obj))
            (duration_hm (kesto obj)) (venue_type_of obj) lat lon
            (resolve_format_ids obj fmt allowed) (street_of obj) (city_of obj)
            (postal_of obj) (country_of obj) (map_url_of obj)
            (virtual_link_of obj) (phone_number_of obj)
            (truncate_comments (strip_html_like (lisatiedot obj))).
Proof.
  unfold transform. intros H.
  destruct (WEEKDAY_MAP !! strip (weekday obj)) as [day|]; [| done].
  destruct (is_empty (normalize_time _)) eqn:Htime; [done |].
  destruct (is_virtual obj && _ && _) eqn:Hcontact; [done |].
  destruct (negb (is_virtual obj) && _) eqn:Haddr; [done |].
  case_bool_decide as Hfmt; [done |].
  destruct (resolve_coordinates _ _ _ _ _ _ _ _) as [[[reason | [lat lon]] c] l] eqn:Hgeo;
    [done |].
  injection H as <- <- <-. exists day, lat, lon.
  split_and!; try done.
  - by apply is_empty_false.
  - intros Hv. rewrite Hv in Hcontact. simpl in Hcontact.
    apply andb_false_iff in Hcontact as [?%is_empty_false | ?%is_empty_false]; auto.
  - intros Hv. rewrite Hv in Haddr. simpl in Haddr.
    apply orb_false_iff in Haddr as [?%is_empty_false Hcp].
    apply andb_false_iff in Hcp as [?%is_empty_false | ?%is_empty_false]; auto.
Qed.

(** C1, as the code has it: every payload that [transform] assembles
    carries a link or a telephone number when its venue type is virtual
    (both may be there), and a street with a city or a postal code when
    its venue type is in person or hybrid. *)
Theorem assembled_payload_invariant fmt allowed w cache obj p cache' cs :
  transform cfg fmt allowed w cache obj = (Assembled p, cache', cs) →
  ∃ venue link phone street city postal,
    payload_fields p venue link phone street city postal
    ∧ some_contact venue link phone
    ∧ has_address venue street city postal.
Proof.
  intros H. apply transform_assembled in H
    as (day & lat & lon & _ & _ & Hvirt & Hphys & _ & _ & ->).
  eexists _, _, _, _, _, _. split; [apply assemble_fields |].
  unfold some_contact, has_address.
  destruct (venue_type_of_cases obj) as [[-> Hv] | [[-> Hv] | [-> Ha]]].
  - split; [| intros [?|?]; done].
    destruct (is_virtual obj) eqn:E.
    + destruct (Hvirt eq_refl); auto.
    + destruct Hv as [? | Hv]; [done |]. destruct Hv. auto.
  - split; [right; right; done | auto].
  - split; [right; right; done | auto].
Qed.

(** *** Coordinates *)

Lemma resolve_coordinates_reason w cache venue street postal city country reason c cs :
  resolve_coordinates cfg w cache venue street postal city country = (inl reason, c, cs) →
  reason = lit "geocode_failed" ∨ reason = lit "geocode_error".
Proof.
  unfold resolve_coordinates. intros H.
  repeat (case_match; simplify_eq); auto.
Qed.


(** *** Formats *)

(** After the three guards, [transform] is the format check followed by
    the coordinates. *)
Lemma transform_after_guards fmt allowed w cache obj :
  reaches_format_resolution obj →
  transform cfg fmt allowed w cache obj =
    if bool_decide (resolve_format_ids obj fmt allowed = [])
    then (Skip (lit "no_valid_formats"), cache, [])
    else
      match resolve_coordinates cfg w cache (venue_type_of obj) (street_of obj)
              (postal_of obj) (city_of obj) (country_of obj) with
      | (inl reason, cache, cs) => (Skip reason, cache, cs)
      | (inr (lat, lon), cache, cs) =>
          (Assembled
             (assemble cfg obj (default 0 (WEEKDAY_MAP !! strip (weekday obj)))
                (normalize_time (alkamisaika obj)) (duration_hm (kesto obj))
                (venue_type_of obj) lat lon (resolve_format_ids obj fmt allowed)
                (street_of obj) (city_of obj) (postal_of obj) (country_of obj)
                (map_url_of obj) (virtual_link_of obj) (phone_number_of obj)
                (truncate_comments (strip_html_like (lisatiedot obj)))),
           cache, cs)
      end.
Proof.
  intros ([day Hday] & Htime & Hvirt & Hphys). unfold transform.
  rewrite Hday. apply is_empty_false in Htime as ->. simpl.
  destruct (is_virtual obj) eqn:Hv; simpl.
  - destruct (Hvirt eq_refl) as [H|H]; apply is_empty_false in H as ->;
      rewrite ?andb_false_r; done.
  - destruct (Hphys eq_refl) as [Hs Hcp]. apply is_empty_false in Hs as ->.
    destruct Hcp as [H|H]; apply is_empty_false in H as ->;
      rewrite ?andb_false_r; done.
Qed.

Lemma resolve_format_ids_fallback obj fmt allowed :
  filter (λ fid, fid ∈ allowed) (build_format_ids obj fmt).1 = [] →
  resolve_format_ids obj fmt allowed =
    match fmt !! lit "FIN" with
    | Some fin_id => if bool_decide (fin_id ∈ allowed) then [fin_id] else []
    | None => []
    end.
Proof.
  unfold resolve_format_ids. destruct (build_format_ids obj fmt) as [ids missing].
  simpl. intros ->. destruct (fmt !! lit "FIN"); [| done].
  by case_bool_decide.
Qed.

Lemma skip_same_state (reason : str) (st : run_state) :
  skip reason
    {| created := created st; skipped := skipped st; failed := failed st;
       skipped_reasons := skipped_reasons st; failed_reasons := failed_reasons st;
       fingerprints := fingerprints st; geocode_cache := geocode_cache st;
       calls := calls st ++ [] |}
  = skip reason st.
Proof. unfold skip. simpl. by rewrite app_nil_r. Qed.

(** C5: for an item that reaches the format resolution and whose ids are
    all filtered away, when the key FIN has a valid id every payload
    assembled for the item has that id as its only format and the item
    is not skipped for its formats; when FIN has no valid id the item is
    skipped with [no_valid_formats] and the iteration does nothing else. *)
Theorem empty_formats_fall_back_or_skip fmt allowed w st obj :
  reaches_format_resolution obj →
  filter (λ fid, fid ∈ allowed) (build_format_ids obj fmt).1 = [] →
  (∀ fin_id, fmt !! lit "FIN" = Some fin_id → fin_id ∈ allowed →
     (∀ p cache cs,
        transform cfg fmt allowed w (geocode_cache st) obj = (Assembled p, cache, cs) →
        p !! lit "formatIds" = Some (VList [fin_id]))
     ∧ (∀ cache cs,
          transform cfg fmt allowed w (geocode_cache st) obj
          ≠ (Skip (lit "no_valid_formats"), cache, cs)))
  ∧ ((∀ fin_id, fmt !! lit "FIN" = Some fin_id → fin_id ∉ allowed) →
     transform cfg fmt allowed w (geocode_cache st) obj
     = (Skip (lit "no_valid_formats"), geocode_cache st, [])
     ∧ loop_body cfg json_dumps sha256_hexdigest fmt allowed st (obj, w)
       = skip (lit "no_valid_formats") st).
Proof.
  intros Hreach Hempty.
  pose proof (resolve_format_ids_fallback _ _ _ Hempty) as Hids.
  pose proof (transform_after_guards fmt allowed w (geocode_cache st) obj Hreach) as Ht.
  split.
  - intros fin_id Hfin Hin. rewrite Hfin, bool_decide_eq_true_2 in Hids by done.
    rewrite Hids in Ht. rewrite bool_decide_eq_false_2 in Ht by done.
    rewrite Ht. split.
    + intros p cache cs H.
      destruct (resolve_coordinates _ _ _ _ _ _ _ _) as [[[reason | [lat lon]] c] l];
        [done |].
      injection H as <- _ _. assemble_lookup.
    + intros cache cs H.
      destruct (resolve_coordinates _ _ _ _ _ _ _ _) as [[[reason | [lat lon]] c] l] eqn:Hgeo;
        [| done].
      injection H as -> _ _.
      apply resolve_coordinates_reason in Hgeo as [Hgeo | Hgeo]; discriminate Hgeo.
  - intros Hstale.
    assert (resolve_format_ids obj fmt allowed = []) as Hnil.
    { rewrite Hids. destruct (fmt !! lit "FIN") as [fin_id|] eqn:Hfin; [| done].
      rewrite bool_decide_eq_false_2; [done | by apply Hstale]. }
    rewrite Hnil in Ht. rewrite bool_decide_eq_true_2 in Ht by done.
    split; [done |]. unfold loop_body. rewrite Ht. apply skip_same_state.
Qed.

(** *** Calls to the outside world *)

Lemma bmlt_create_meeting_request w p :
  bmlt_create_meeting cfg w p
  = (Registry POST (meetings_url cfg) p, http_json w POST (meetings_url cfg) p).
Proof. reflexivity. Qed.

(** The calls of the coordinate resolution: none, or one call of the
    geocoder followed by the delay unless the geocoder raised. *)
Lemma resolve_coordinates_calls_shape w cache venue street postal city country :
  let q := clean_geocode_query street postal city country in
  let cs := (resolve_coordinates cfg w cache venue street postal city country).2 in
  cs = []
  ∨ (cs = [Geocode q; Sleep 1100] ∧ geocode_address w q ≠ GeoRaise)
  ∨ (cs = [Geocode q] ∧ geocode_address w q = GeoRaise).
Proof.
  cbv zeta. unfold resolve_coordinates.
  repeat (case_match; simplify_eq/=); auto; right; left; split; congruence.
Qed.

Lemma resolve_coordinates_calls w cache venue street postal city country r c cs :
  resolve_coordinates cfg w cache venue street postal city country = (r, c, cs) →
  Forall (is_create cfg) cs.
Proof.
  unfold resolve_coordinates. intros H.
  repeat (case_match; simplify_eq); repeat constructor.
Qed.

Lemma transform_calls fmt allowed w cache obj r c cs :
  transform cfg fmt allowed w cache obj = (r, c, cs) → Forall (is_create cfg) cs.
Proof.
  unfold transform. intros H.
  destruct (WEEKDAY_MAP !! _); [| by simplify_eq].
  repeat (match type of H with (if ?b then _ else _) = _ => destruct b end;
          [by simplify_eq |]).
  destruct (resolve_coordinates _ _ _ _ _ _ _ _) as [[[reason | [lat lon]] c'] l] eqn:Hgeo;
    simplify_eq; by eapply resolve_coordinates_calls.
Qed.

(** *** Publishing *)

(** What an iteration does once a payload is assembled whose fingerprint
    is not the stored one. *)
Lemma loop_body_publish fmt allowed st obj w p cache cs :
  transform cfg fmt allowed w (geocode_cache st) obj = (Assembled p, cache, cs) →
  fingerprints st !! str_of_Z (wp_id obj)
    ≠ Some (payload_fingerprint json_dumps sha256_hexdigest p) →
  loop_body cfg json_dumps sha256_hexdigest fmt allowed st (obj, w) =
    let fp := payload_fingerprint json_dumps sha256_hexdigest p in
    let log := calls st ++ cs ++ [Registry POST (meetings_url cfg) p] in
    match http_json w POST (meetings_url cfg) p with
    | HttpOk =>
        {| created := created st + 1; skipped := skipped st; failed := failed st;
           skipped_reasons := skipped_reasons st;
           failed_reasons := failed_reasons st;
           fingerprints := <[str_of_Z (wp_id obj) := fp]> (fingerprints st);
           geocode_cache := cache; calls := log |}
    | HttpError code =>
        {| created := created st; skipped := skipped st; failed := failed st + 1;
           skipped_reasons := skipped_reasons st;
           failed_reasons := bump (str_of_Z code) (failed_reasons st);
           fingerprints := fingerprints st;
           geocode_cache := cache; calls := log |}
    | HttpRaise =>
        {| created := created st; skipped := skipped st; failed := failed st + 1;
           skipped_reasons := skipped_reasons st;
           failed_reasons := bump (lit "exception") (failed_reasons st);
           fingerprints := fingerprints st;
           geocode_cache := cache; calls := log |}
    end.
Proof.
  intros Ht Hfp. unfold loop_body. rewrite Ht. cbn [fingerprints].
  rewrite bool_decide_eq_false_2 by done.
  rewrite bmlt_create_meeting_request. cbv zeta.
  destruct (http_json w POST (meetings_url cfg) p); simpl; by rewrite <- (assoc_L (++)).
Qed.



Lemma loop_body_calls fmt allowed st obj w :
  Forall (is_create cfg) (calls st) →
  Forall (is_create cfg)
    (calls (loop_body cfg json_dumps sha256_hexdigest fmt allowed st (obj, w))).
Proof.
  intros Hst. unfold loop_body.
  destruct (transform _ _ _ _ _ _) as [[r cache] cs] eqn:Ht.
  pose proof (transform_calls _ _ _ _ _ _ _ _ Ht) as Hcs.
  destruct r as [reason | p]; cbn [fingerprints calls skip].
  - by apply Forall_app.
  - case_bool_decide; cbn [calls skip]; [by apply Forall_app |].
    rewrite bmlt_create_meeting_request.
    destruct (http_json _ _ _ _); cbn [calls];
      (apply Forall_app; split; [by apply Forall_app | by repeat constructor]).
Qed.

Lemma run_loop_calls fmt allowed items st :
  Forall (is_create cfg) (calls st) →
  Forall (is_create cfg)
    (calls (run_loop cfg json_dumps sha256_hexdigest fmt allowed st items)).
Proof.
  revert st. induction items as [|[obj w] items IH]; intros st Hst; [done |].
  apply IH. by apply loop_body_calls.
Qed.

(** C9: every request the loop sends to the registry is a POST to the
    meetings endpoint; and an item whose payload no longer has the
    stored fingerprint is sent as such a request, a creation. *)
Theorem registry_requests_are_creates fmt allowed cache0 fingerprints0 items :
  Forall (is_create cfg)
    (calls (run_loop cfg json_dumps sha256_hexdigest fmt allowed
              (initial_state cache0 fingerprints0) items))
  ∧ (∀ st obj w p cache cs old,
       transform cfg fmt allowed w (geocode_cache st) obj = (Assembled p, cache, cs) →
       fingerprints st !! str_of_Z (wp_id obj) = Some old →
       old ≠ payload_fingerprint json_dumps sha256_hexdigest p →
       calls (loop_body cfg json_dumps sha256_hexdigest fmt allowed st (obj, w))
       = calls st ++ cs ++ [Registry POST (meetings_url cfg) p]).
Proof.
  split.
  - apply run_loop_calls. constructor.
  - intros st obj w p cache cs old Ht Hold Hne.
    rewrite (loop_body_publish _ _ _ _ _ _ _ _ Ht) by (rewrite Hold; congruence).
    cbv zeta. by destruct (http_json _ _ _ _).
Qed.

(** *** Start times *)











End Pipeline.

(** ** The sample items run through the model *)

Lemma street_item_transform (w : world) :
  geocode_address w = geocode_address registry_accepts →
  transform default_config sample_formats.1 sample_formats.2 w ∅ street_item
  = (Assembled street_item_payload,
     {[ street_item_query := (60.5%float, 24.5%float) ]},
     [Geocode street_item_query; Sleep 1100]).
Proof.
  intros Hw.
  transitivity (transform default_config sample_formats.1 sample_formats.2
                  registry_accepts ∅ street_item); [| vm_refl].
  unfold transform, resolve_coordinates. by rewrite Hw.
Qed.

Lemma english_item_transform :
  transform default_config sample_formats.1 sample_formats.2 registry_accepts ∅ english_item
  = (Assembled english_item_payload,
     {[ street_item_query := (60.5%float, 24.5%float) ]},
     [Geocode street_item_query; Sleep 1100]).
Proof. vm_refl. Qed.


Lemma english_item_reaches : reaches_format_resolution english_item.
Proof.
  split_and!.
  - exists 1. vm_refl.
  - intros H. vm_compute in H. discriminate H.
  - intros H. vm_compute in H. discriminate H.
  - intros _. split; [| left]; intros H; vm_compute in H; discriminate H.
Qed.

(** C1 as stated fails: the payload assembled for the Zoom meeting is
    virtual and carries both a link and a telephone number. *)
Lemma zoom_item_has_both_contacts :
  transform default_config sample_formats.1 sample_formats.2 quiet_world ∅ zoom_item
  = (Assembled zoom_item_payload, ∅, [])
  ∧ payload_fields zoom_item_payload VENUE_VIRTUAL
      (lit "https://zoom.us/j/1") (lit "+358401234567") [] [] []
  ∧ ¬ exactly_one_contact VENUE_VIRTUAL (lit "https://zoom.us/j/1") (lit "+358401234567").
Proof.
  split; [vm_refl |]. split.
  - apply assemble_fields.
  - intros [[_ H] | [[H _] | H]]; [discriminate H | discriminate H | by apply H].
Qed.

(** The payload of the street meeting keeps the invariant of C1. *)
Lemma assembled_payload_invariant_witness :
  ∃ venue link phone street city postal,
    payload_fields street_item_payload venue link phone street city postal
    ∧ some_contact venue link phone
    ∧ has_address venue street city postal.
Proof.
  exact (assembled_payload_invariant default_config sample_formats.1 sample_formats.2
           registry_accepts ∅ street_item street_item_payload _ _
           (street_item_transform registry_accepts eq_refl)).
Defined.



(** The English meeting falls back to the id of FIN in a registry that
    has it, and is skipped in a registry that has no formats. *)
Lemma empty_formats_fall_back_or_skip_witness :
  filter (λ fid, fid ∈ sample_formats.2)
    (build_format_ids english_item sample_formats.1).1 = []
  ∧ english_item_payload !! lit "formatIds" = Some (VList [4])
  ∧ filter (λ fid, fid ∈ no_formats.2)
      (build_format_ids english_item no_formats.1).1 = []
  ∧ loop_body default_config sample_json_dumps sample_digest no_formats.1 no_formats.2
      first_run (english_item, registry_accepts)
    = skip (lit "no_valid_formats") first_run.
Proof.
  assert (H1 : filter (λ fid, fid ∈ sample_formats.2)
                 (build_format_ids english_item sample_formats.1).1 = [])
    by reflexivity.
  assert (H2 : filter (λ fid, fid ∈ no_formats.2)
                 (build_format_ids english_item no_formats.1).1 = [])
    by reflexivity.
  split; [exact H1 |]. split; [| split; [exact H2 |]].
  - refine (proj1 (proj1 (empty_formats_fall_back_or_skip default_config
             sample_json_dumps sample_digest sample_formats.1 sample_formats.2
             registry_accepts first_run english_item english_item_reaches H1)
             4 _ _) _ _ _ english_item_transform).
    + reflexivity.
    + vm_compute. reflexivity.
  - refine (proj2 (proj2 (empty_formats_fall_back_or_skip default_config
             sample_json_dumps sample_digest no_formats.1 no_formats.2
             registry_accepts first_run english_item english_item_reaches H2) _)).
    intros fin_id H. vm_compute in H. discriminate H.
Defined.

(** The fingerprint of the street meeting is not the one remembered. *)
Lemma street_item_fingerprint_is_new :
  lit "an older fingerprint"
  ≠ payload_fingerprint sample_json_dumps sample_digest street_item_payload.
Proof. intros H. vm_compute in H. discriminate H. Qed.


(** The street meeting, remembered with another fingerprint, is sent
    again as a POST to the meetings endpoint. *)
Lemma registry_requests_are_creates_witness :
  calls (loop_body default_config sample_json_dumps sample_digest
           sample_formats.1 sample_formats.2 later_run (street_item, registry_accepts))
  = [ Geocode street_item_query; Sleep 1100;
      Registry POST (meetings_url default_config) street_item_payload ].
Proof.
  exact (proj2 (registry_requests_are_creates default_config sample_json_dumps
                  sample_digest sample_formats.1 sample_formats.2 ∅ ∅ [])
           later_run street_item registry_accepts street_item_payload _ _
           (lit "an older fingerprint")
           (street_item_transform registry_accepts eq_refl)
           eq_refl street_item_fingerprint_is_new).
Defined.



(** C6, where the code departs from it: in a run of two meetings whose
    geocoding raises, the two calls of the geocoder follow each other with
    no delay between them; when the geocoder answers with no result, every
    call is followed by the delay. *)
Theorem geocode_error_is_not_followed_by_delay :
  calls (run_loop default_config sample_json_dumps sample_digest
           sample_formats.1 sample_formats.2 first_run
           [(street_item, geocoder_down); (english_item, geocoder_down)])
  = [Geocode street_item_query; Geocode street_item_query]
  ∧ calls (run_loop default_config sample_json_dumps sample_digest
             sample_formats.1 sample_formats.2 first_run
             [(street_item, quiet_world); (english_item, quiet_world)])
    = [Geocode street_item_query; Sleep 1100; Geocode street_item_query; Sleep 1100].
Proof. split; vm_refl. Qed.
